(** * EHR demo backend: the Express routes of [backend/server.js]

    A shallow embedding of the request handlers of [backend/server.js]
    (the patient store and the three mocked feature routes), together
    with the two places of the frontend that consume the mocked routes
    ([pages/ClinicalNotes.jsx], [pages/ICD10Coding.jsx]), the API client
    ([services/api.js]: interceptors and services), the state updates of
    the patient page ([PatientManagement]) and the confidence bands of the
    coding page.

    Conventions of the embedding.
    - A JSON value is the inductive [json]; a JavaScript object is a finite
      map from property names to values.  Two objects are deep-equal exactly
      when the maps are equal; the order in which properties are serialised
      is not represented.
    - A JavaScript number is represented by the integer it denotes.  This is
      exact for every integer of magnitude below 2^53, which covers array
      lengths and every identifier the store assigns; numbers with a
      fractional part are not represented.
    - A string is a sequence of code units below 256.
    - The module-level [patients] array is threaded through the handlers
      explicitly: a handler maps the array before the request to a response
      and the array after it.
    - [req.body] is the object [express.json()] parsed from the request;
      [req.params.id] is the string the route matched. *)

From Stdlib Require Import ZArith Ascii String.
From stdpp Require Import gmap strings list fin_maps.

Local Open Scope string_scope.
Local Open Scope Z_scope.

#[local] Set Warnings "-register-all".

(** ** JSON values and JavaScript objects *)

Inductive json : Type :=
| JNull
| JBool (b : bool)
| JNum (n : Z)
| JStr (s : string)
| JArr (l : list json)
| JObj (m : gmap string json).

Abbreviation obj := (gmap string json).

(** An object literal [{ k1: v1, ..., kn: vn }]: the properties are defined
    from left to right, a later one replacing an earlier one of that name. *)
Definition obj_lit (kvs : list (string * json)) : obj :=
  foldl (fun m kv => <[kv.1 := kv.2]> m) ∅ kvs.

(** [{ ...target, ...src }]: every own property of [src] is copied onto
    [target], replacing a property of the same name. *)
Definition spread (target src : obj) : obj := src ∪ target.

(** [v === n] for a property read [v] ([None] is [undefined]) and the result
    [n] of [parseInt] ([None] is [NaN], which is equal to nothing). *)
Definition strict_eq_num (v : option json) (n : option Z) : bool :=
  match v, n with
  | Some (JNum a), Some b => bool_decide (a = b)
  | _, _ => false
  end.

(** [v === s] for a property read [v] and a string literal [s]. *)
Definition strict_eq_str (v : option json) (s : string) : bool :=
  match v with
  | Some (JStr a) => bool_decide (a = s)
  | _ => false
  end.

(** ToBoolean on a property read. *)
Definition truthy (v : option json) : bool :=
  match v with
  | None | Some JNull => false
  | Some (JBool b) => b
  | Some (JNum n) => negb (bool_decide (n = 0))
  | Some (JStr s) => negb (bool_decide (s = ""))
  | Some (JArr _) | Some (JObj _) => true
  end.

(** ** [parseInt(string)] with no radix argument (ECMAScript, 19.2.5) *)

Module ParseInt.

Definition code (c : ascii) : Z := Z.of_N (N_of_ascii c).

(** White space and line terminators among the code units below 256:
    TAB, LF, VT, FF, CR, SP and NBSP. *)
Definition is_white_space (c : ascii) : bool :=
  let n := code c in
  ((9 <=? n) && (n <=? 13)) || (n =? 32) || (n =? 160).

Fixpoint trim_start (s : string) : string :=
  match s with
  | String c s' => if is_white_space c then trim_start s' else s
  | EmptyString => s
  end.

(** The value of a digit character: 0-9, then a-z and A-Z for 10-35. *)
Definition digit_value (c : ascii) : option Z :=
  let n := code c in
  if (48 <=? n) && (n <=? 57) then Some (n - 48)
  else if (97 <=? n) && (n <=? 122) then Some (n - 97 + 10)
  else if (65 <=? n) && (n <=? 90) then Some (n - 65 + 10)
  else None.

Definition radix_digit (R : Z) (c : ascii) : option Z :=
  match digit_value c with
  | Some d => if d <? R then Some d else None
  | None => None
  end.

(** The digits of the longest prefix made of radix-[R] digits. *)
Fixpoint radix_prefix (R : Z) (s : string) : list Z :=
  match s with
  | String c s' =>
      match radix_digit R c with
      | Some d => d :: radix_prefix R s'
      | None => []
      end
  | EmptyString => []
  end.

Definition radix_value (R : Z) (ds : list Z) : Z :=
  foldl (fun acc d => acc * R + d) 0 ds.

(** A leading [-] or [+] is removed and gives the sign. *)
Definition strip_sign (s : string) : Z * string :=
  match s with
  | String c s' =>
      if Ascii.eqb c "-" then (-1, s')
      else if Ascii.eqb c "+" then (1, s')
      else (1, s)
  | EmptyString => (1, s)
  end.

(** A leading [0x] or [0X] is removed and selects radix 16; the radix is
    10 otherwise. *)
Definition strip_prefix (s : string) : Z * string :=
  match s with
  | String c1 (String c2 s') =>
      if Ascii.eqb c1 "0" && (Ascii.eqb c2 "x" || Ascii.eqb c2 "X")
      then (16, s') else (10, s)
  | _ => (10, s)
  end.

(** [None] stands for [NaN].  The result is the exact integer the digits
    write; JavaScript rounds it to the nearest double, so the two agree
    whenever the integer is a safe integer ([safe_integer] below). *)
Definition parseInt (input : string) : option Z :=
  let '(sign, s1) := strip_sign (trim_start input) in
  let '(R, s2) := strip_prefix s1 in
  match radix_prefix R s2 with
  | [] => None
  | ds => Some (sign * radix_value R ds)
  end.

End ParseInt.

Import ParseInt.

(** ** Responses *)

Record response : Type := Response { status : Z; body : json }.

(** [res.json(v)] answers with the default status 200;
    [res.status(c).json(v)] with status [c]. *)
Definition res_json (v : json) : response := Response 200 v.
Definition res_status_json (c : Z) (v : json) : response := Response c v.

(** ** Patient management *)

(** [let patients = [ ... ]]: the array a freshly started process holds. *)
Definition patients0 : list obj :=
  [ obj_lit [("id", JNum 1); ("name", JStr "John Doe"); ("age", JNum 30);
             ("diagnosis", JStr "Fever")];
    obj_lit [("id", JNum 2); ("name", JStr "Jane Doe"); ("age", JNum 28);
             ("diagnosis", JStr "Cough")] ].

(** The callback [p => p.id === n] of [find] and [findIndex]. *)
Definition id_matches (n : option Z) (p : obj) : Prop :=
  strict_eq_num (p !! "id") n = true.

#[global] Instance id_matches_dec n p : Decision (id_matches n p) :=
  decide (strict_eq_num (p !! "id") n = true).

Definition not_found : response :=
  res_status_json 404 (JObj (obj_lit [("error", JStr "Patient not found")])).

(** [app.get("/patients")] *)
Definition get_patients (patients : list obj) : response :=
  res_json (JArr (JObj <$> patients)).

(** [app.get("/patients/:id")]; [id] is [req.params.id].  [find] yields the
    first element the callback accepts, or [undefined], the only falsy value
    it can yield here. *)
Definition get_patient (id : string) (patients : list obj) : response :=
  match list_find (id_matches (parseInt id)) patients with
  | None => not_found
  | Some (_, patient) => res_json (JObj patient)
  end.

(** [app.post("/patients")]; [body] is [req.body]. *)
Definition post_patients (body : obj) (patients : list obj)
  : response * list obj :=
  let newPatient :=
    spread (obj_lit [("id", JNum (Z.of_nat (length patients) + 1))]) body in
  (res_json (JObj (obj_lit [("message", JStr "Patient added");
                            ("patient", JObj newPatient)])),
   (patients ++ [newPatient])%list).

(** [app.put("/patients/:id")].  [findIndex] yields the index of the first
    element the callback accepts, or -1 ([None] here).  The response reads
    [patients[index]] back, which is the element just stored. *)
Definition put_patient (id : string) (body : obj) (patients : list obj)
  : response * list obj :=
  match list_find (id_matches (parseInt id)) patients with
  | None => (not_found, patients)
  | Some (index, old) =>
      let merged := spread (spread ∅ old) body in
      (res_json (JObj (obj_lit [("message", JStr "Patient updated");
                                ("patient", JObj merged)])),
       <[index := merged]> patients)
  end.

(** ** The test route and the mocked feature routes *)

Definition get_root : response :=
  res_json (JObj (obj_lit [("message", JStr "Backend running successfully!")])).

Definition image_enhancement (body : obj) : response :=
  res_json (JObj (obj_lit
    [("success", JBool true);
     ("enhanced_image", JStr "BASE64_IMAGE_DATA_HERE");
     ("message", JStr "Image enhanced successfully (mock response).")])).

(** [app.post("/clinical-notes")]; [const { note_type } = req.body]. *)
Definition clinical_notes (body : obj) : response :=
  let note_type := body !! "note_type" in
  if strict_eq_str note_type "soap" then
    res_json (JObj (obj_lit
      [("note", JStr "SOAP note: Subjective, Objective, Assessment, Plan (mock)")]))
  else if strict_eq_str note_type "discharge" then
    res_json (JObj (obj_lit
      [("note", JStr "Discharge Summary generated successfully (mock)")]))
  else if strict_eq_str note_type "radiology" then
    res_json (JObj (obj_lit
      [("note", JStr "Radiology Report generated successfully (mock)")]))
  else
    res_status_json 400 (JObj (obj_lit [("error", JStr "Invalid note type")])).

(** [app.post("/icd10-coding")] *)
Definition icd10_coding (body : obj) : response :=
  res_json (JObj (obj_lit
    [("codes", JArr
       [JObj (obj_lit [("code", JStr "A00"); ("description", JStr "Cholera")]);
        JObj (obj_lit [("code", JStr "B20"); ("description", JStr "HIV disease")])])])).

(** ** The router *)

(** A request that one of the eight registered routes receives, with
    [req.body] parsed to an object.  What Express answers on its own (404
    for a path no route matches, 400 for a body it cannot parse) never
    reaches this code and is not part of the type; a request whose
    [req.body] is [undefined] is covered by [serve] below. *)

Inductive request : Type :=
| GET_root
| POST_image_enhancement (body : obj)
| POST_clinical_notes (body : obj)
| POST_icd10_coding (body : obj)
| GET_patients
| GET_patient (id : string)
| POST_patients (body : obj)
| PUT_patient (id : string) (body : obj).

(** One request: the response sent and the [patients] array afterwards. *)
Definition handle (r : request) (patients : list obj) : response * list obj :=
  match r with
  | GET_root => (get_root, patients)
  | POST_image_enhancement b => (image_enhancement b, patients)
  | POST_clinical_notes b => (clinical_notes b, patients)
  | POST_icd10_coding b => (icd10_coding b, patients)
  | GET_patients => (get_patients patients, patients)
  | GET_patient id => (get_patient id patients, patients)
  | POST_patients b => post_patients b patients
  | PUT_patient id b => put_patient id b patients
  end.

(** The arrays a process can hold: [patients0] at start, then one request
    after another, each taken from the requests [allowed]. *)
Inductive reachable (allowed : request -> Prop) : list obj -> Prop :=
| reachable_start : reachable allowed patients0
| reachable_step r patients :
    reachable allowed patients -> allowed r ->
    reachable allowed (handle r patients).2.

Definition any_request (r : request) : Prop := True.

(** Requests whose body, if it reaches the patient store, has no ["id"]
    property. *)
Definition id_free (r : request) : Prop :=
  match r with
  | POST_patients b | PUT_patient _ b => b !! "id" = None
  | _ => True
  end.

(** ** The API client ([services/api.js]) *)

Definition digit_char (d : Z) : ascii := ascii_of_N (Z.to_N (48 + d)).

(** The decimal digits of [n >= 0] written in front of [acc]; [fuel] bounds
    the number of digits. *)
Fixpoint decimal_digits (fuel : nat) (n : Z) (acc : string) : string :=
  match fuel with
  | O => acc
  | S fuel' =>
      let acc' := String (digit_char (n mod 10)) acc in
      if n <? 10 then acc' else decimal_digits fuel' (n / 10) acc'
  end.

(** ToString of an integer-valued number, as a template literal applies it:
    decimal notation.  JavaScript writes an integer this way below 10^21 and
    in exponent notation ([1e+21]) from there on, which is not modelled:
    the definition stands for the client's text only for numbers below
    10^21, and statements about numbers a caller chooses carry
    [safe_integer] as a hypothesis. *)
Definition number_to_string (n : Z) : string :=
  if n <? 0 then String "-" (decimal_digits (S (Z.to_nat (- n))) (- n) "")
  else decimal_digits (S (Z.to_nat n)) n "".

(** [patientService.getPatient(patientId)] issues
    [api.get(`/patients/${patientId}`)]. *)
Definition getPatient_request (patientId : Z) : request :=
  GET_patient (number_to_string patientId).

(** ** The consumers of the mocked routes in the frontend *)

(** [pages/ClinicalNotes.jsx], [handleGenerate]:
    [if (result.success) { setGeneratedNote(result.content) ... }].
    [Some v] when [setGeneratedNote] is called, with the value it gets. *)
Definition handleGenerate_note (result : obj) : option (option json) :=
  if truthy (result !! "success") then Some (result !! "content") else None.

(** [pages/ICD10Coding.jsx], [handleSuggest]:
    [if (result.success) { setSuggestedCodes(result.suggested_codes) ... }]. *)
Definition handleSuggest_codes (result : obj) : option (option json) :=
  if truthy (result !! "success") then Some (result !! "suggested_codes")
  else None.

(** ** Vocabulary of the properties *)

(** The record a [{message, patient}] response carries. *)
Definition patient_of (r : response) : option obj :=
  match body r with
  | JObj m => match m !! "patient" with Some (JObj p) => Some p | _ => None end
  | _ => None
  end.

(** A JSON value is an object that has every property named in [ks]. *)
Definition has_props (ks : list string) (v : json) : bool :=
  match v with
  | JObj m => forallb (fun k => bool_decide (is_Some (m !! k))) ks
  | _ => false
  end.

(** A path segment written as a positive integer should be: decimal digits
    only, at least one. *)
Definition is_decimal_digit (c : ascii) : bool :=
  (48 <=? code c) && (code c <=? 57).

Definition is_decimal (s : string) : bool :=
  match s with
  | EmptyString => false
  | _ => forallb is_decimal_digit (list_ascii_of_string s)
  end.

(** Every record of the array has the identifier its position gives it. *)
Definition ids_sequential (patients : list obj) : Prop :=
  forall (i : nat) (p : obj),
    patients !! i = Some p -> p !! "id" = Some (JNum (Z.of_nat i + 1)).

(** An update leaves the identifier of the record it addresses as it was,
    whatever the request body holds. *)
Definition put_keeps_id (id : string) (fields : obj) (patients : list obj)
  : Prop :=
  forall (index : nat) (old : obj),
    patients !! index = Some old -> id_matches (parseInt id) old ->
    exists p, (put_patient id fields patients).2 !! index = Some p /\
              p !! "id" = old !! "id" /\ id_matches (parseInt id) p.

(** A creation gives the new record the identifier count plus one, which is
    above every identifier the array holds. *)
Definition post_assigns_fresh_id (fields : obj) (patients : list obj) : Prop :=
  exists p, patient_of (post_patients fields patients).1 = Some p /\
    p !! "id" = Some (JNum (Z.of_nat (length patients) + 1)) /\
    forall (q : obj) (n : Z),
      q ∈ patients -> q !! "id" = Some (JNum n) ->
      n < Z.of_nat (length patients) + 1.

(** Reading the record back under the identifier a creation returned gives
    the created record. *)
Definition get_after_post (fields : obj) (patients : list obj) : Prop :=
  exists p, patient_of (post_patients fields patients).1 = Some p /\
    (forall id : string,
        id_matches (parseInt id) p ->
        get_patient id (post_patients fields patients).2 = res_json (JObj p)) /\
    (forall n : Z,
        p !! "id" = Some (JNum n) ->
        (handle (getPatient_request n) (post_patients fields patients).2).1
          = res_json (JObj p)).

(** A read answers with a record of the array that matches, or with the
    not-found response. *)
Definition get_answers (id : string) (patients : list obj) : Prop :=
  (exists p, p ∈ patients /\ id_matches (parseInt id) p /\
             get_patient id patients = res_json (JObj p)) \/
  get_patient id patients = not_found.

(** A read answers as [get_answers] says, and with not-found whenever the
    path segment is not a decimal integer. *)
Definition get_rejects_malformed (id : string) (patients : list obj) : Prop :=
  get_answers id patients /\
  (is_decimal id = false -> get_patient id patients = not_found).

(** [Number.MIN_SAFE_INTEGER <= n <= Number.MAX_SAFE_INTEGER]: the integers
    a JavaScript number holds exactly, on which this embedding of numbers,
    of [parseInt] and of ToString is exact. *)
Definition safe_integer (n : Z) : Prop :=
  - 9007199254740991 <= n <= 9007199254740991.

(** A record carries the identifier a path segment writes: the segment is a
    decimal integer and the record's id is that integer. *)
Definition carries_id (id : string) (p : obj) : Prop :=
  is_decimal id = true /\ id_matches (parseInt id) p.

(** When no record of the store carries the id of the request, the read and
    the update answer not-found and the update leaves the store alone. *)
Definition absent_gives_not_found
    (id : string) (fields : obj) (patients : list obj) : Prop :=
  Forall (fun p => ~ carries_id id p) patients ->
  get_patient id patients = not_found /\
  put_patient id fields patients = (not_found, patients).

(** ** Requests without a body *)



(** What a handler does: it sends a response, or it throws (Express then
    answers 500). *)
Inductive reply : Type :=
| Answer (r : response)
| Throws.


(** ** Sequences of requests *)

(** The [patients] array after the requests [rs], handled one after
    another. *)
Definition run (rs : list request) (patients : list obj) : list obj :=
  foldl (fun st r => (handle r st).2) patients rs.

Definition is_create (r : request) : bool :=
  match r with POST_patients _ => true | _ => false end.

(** The record [POST /patients] builds for [body] when the array holds
    [count] records. *)
Definition new_patient (count : nat) (body : obj) : obj :=
  spread (obj_lit [("id", JNum (Z.of_nat count + 1))]) body.

(** ** The API client: interceptors and services ([services/api.js]) *)

(** What the client reads and writes in the browser: [localStorage] and
    [window.location.href]. *)
Record browser : Type :=
  Browser { localStorage : gmap string string; location_href : string }.

(** The [headers] of [axios.create]. *)
Definition default_headers : gmap string string :=
  {[ "Content-Type" := "application/json" ]}.

(** The request interceptor, on the headers of the request configuration:
    [getItem] gives [null] for a missing key, and [if (token)] rejects
    [null] and the empty string. *)
Definition request_interceptor (b : browser) (headers : gmap string string)
  : gmap string string :=
  match localStorage b !! "authToken" with
  | Some token =>
      if bool_decide (token = "") then headers
      else <["Authorization" := "Bearer " ++ token]> headers
  | None => headers
  end.

(** The error handler of the response interceptor, on the browser;
    [error.response] is [None] when no response arrived.  The handler
    always rejects with the error it got. *)
Definition response_error_interceptor (error : option response) (b : browser)
  : browser :=
  match error with
  | Some r =>
      if bool_decide (status r = 401)
      then Browser (delete "authToken" (localStorage b)) "/login"
      else b
  | None => b
  end.







(** [patientService], for a numeric [patientId]. *)
Definition getPatients_request : request := GET_patients.

Definition createPatient_request (patientData : obj) : request :=
  POST_patients patientData.

Definition updatePatient_request (patientId : Z) (patientData : obj)
  : request :=
  PUT_patient (number_to_string patientId) patientData.

(** ** The patient page ([PatientManagement]) *)

Module PatientPage.

Record patient : Type := Patient {
  id : string;
  name : string;
  age : option Z;          (* [None] is [NaN] *)
  gender : string;
  lastVisit : string;
  status : string;
  imagesProcessed : Z;
  notesGenerated : Z
}.

Definition samplePatients : list patient :=
  [ Patient "P001" "Aaryan Sharma" (Some 45) "Male" "2025-11-10" "Active" 12 8;
    Patient "P002" "Sushmita Rao" (Some 62) "Female" "2025-11-11" "Active" 5 3;
    Patient "P003" "Rohan Mehta" (Some 38) "Male" "2025-11-08" "Inactive" 8 5;
    Patient "P004" "Priya Patel" (Some 29) "Female" "2025-11-12" "Active" 15 11 ].

(** The [newPatient] form; its fields are the texts of the inputs. *)
Record form : Type := Form { f_name : string; f_age : string; f_gender : string }.

(** The state of the component. *)
Record page : Type :=
  Page { patients : list patient; openDialog : bool; newPatient : form }.

Definition initial_page : page :=
  Page samplePatients false (Form "" "" "Male").

Inductive toast : Type :=
| toast_info (message : string)
| toast_success (message : string)
| toast_error (message : string).

(** [s.padStart(targetLength, fill)] for a fill of one character. *)
Definition padStart (targetLength : nat) (fill : ascii) (s : string) : string :=
  fold_right String s (replicate (targetLength - String.length s) fill).

(** [`P${String(n).padStart(3, "0")}`] *)
Definition patient_label (n : Z) : string :=
  String "P" (padStart 3 "0" (number_to_string n)).

Definition toggle (p : patient) : patient :=
  Patient (id p) (name p) (age p) (gender p) (lastVisit p)
    (if bool_decide (status p = "Active") then "Inactive" else "Active")
    (imagesProcessed p) (notesGenerated p).

(** [toggleStatus(id)] *)
Definition toggleStatus (i : string) (pg : page) : page * toast :=
  (Page ((fun p => if bool_decide (id p = i) then toggle p else p)
           <$> patients pg)
        (openDialog pg) (newPatient pg),
   toast_success "Patient status updated").

(** [handleAddPatient()]; [today] is
    [new Date().toISOString().split("T")[0]]. *)
Definition handleAddPatient (today : string) (pg : page) : page * toast :=
  if bool_decide (f_name (newPatient pg) = "")
     || bool_decide (f_age (newPatient pg) = "")
  then (pg, toast_error "Fill all fields")
  else
    let p := Patient (patient_label (Z.of_nat (length (patients pg)) + 1))
               (f_name (newPatient pg))
               (parseInt (f_age (newPatient pg)))
               (f_gender (newPatient pg))
               today "Active" 0 0 in
    (Page (patients pg ++ [p])%list false (Form "" "" "Male"),
     toast_success "Patient added successfully!").

(** What the user can do on the page. *)
Inductive action : Type :=
| ToggleStatus (i : string)
| AddPatient (today : string)
| SetNewPatient (f : form)
| SetOpenDialog (open : bool).

Definition act (a : action) (pg : page) : page :=
  match a with
  | ToggleStatus i => (toggleStatus i pg).1
  | AddPatient today => (handleAddPatient today pg).1
  | SetNewPatient f => Page (patients pg) (openDialog pg) f
  | SetOpenDialog o => Page (patients pg) o (newPatient pg)
  end.

Inductive reachable_page : page -> Prop :=
| reachable_initial : reachable_page initial_page
| reachable_act a pg : reachable_page pg -> reachable_page (act a pg).

(** The record at position [i] carries the label of [i + 1] and is active
    or inactive. *)
Definition labelled (ps : list patient) : Prop :=
  forall (i : nat) (p : patient),
    ps !! i = Some p ->
    id p = patient_label (Z.of_nat i + 1) /\
    (status p = "Active" \/ status p = "Inactive").

End PatientPage.

(** ** The confidence bands of the coding page ([ICD10Coding]) *)

Module Confidence.

Section Bands.

(** Numbers with their [>=], and the literals [0.8], [0.6], [0.4]. *)
Context {num : Type} (ge : num -> num -> bool) (c08 c06 c04 : num).

Definition getConfidenceColor (confidence : num) : string :=
  if ge confidence c08 then "success"
  else if ge confidence c06 then "primary"
  else if ge confidence c04 then "warning"
  else "error".

Definition getConfidenceLabel (confidence : num) : string :=
  if ge confidence c08 then "High"
  else if ge confidence c06 then "Medium"
  else if ge confidence c04 then "Low"
  else "Very Low".

End Bands.

(** The label shown beside a colour. *)
Definition label_of_color (color : string) : string :=
  if bool_decide (color = "success") then "High"
  else if bool_decide (color = "primary") then "Medium"
  else if bool_decide (color = "warning") then "Low"
  else "Very Low".

End Confidence.

(** ** Properties of the embedding *)

Section Objects.

Implicit Types (target src o : obj) (k : string) (v : json).

Lemma lookup_spread target src k :
  spread target src !! k =
    match src !! k with Some v => Some v | None => target !! k end.
Proof.
  unfold spread. rewrite lookup_union.
  destruct (src !! k), (target !! k); reflexivity.
Qed.

Lemma spread_empty o : spread ∅ o = o.
Proof. unfold spread. apply (right_id_L ∅ (∪)). Qed.

Lemma obj_lit_cons_lookup k v k' :
  obj_lit [(k, v)] !! k' = if decide (k = k') then Some v else None.
Proof.
  unfold obj_lit. simpl. rewrite lookup_insert.
  destruct (decide (k = k')); [reflexivity | apply lookup_empty].
Qed.

End Objects.

Section Find.

Context (n : option Z).
Implicit Types (patients : list obj) (p : obj).

Lemma find_absent patients :
  Forall (fun p => ~ id_matches n p) patients ->
  list_find (id_matches n) patients = None.
Proof. intros H. apply list_find_None. exact H. Qed.

Lemma find_present patients p :
  p ∈ patients -> id_matches n p ->
  exists (index : nat) (old : obj),
    list_find (id_matches n) patients = Some (index, old) /\
    patients !! index = Some old /\ id_matches n old.
Proof.
  intros Hin Hp.
  destruct (list_find_elem_of (id_matches n) patients p Hin Hp) as [[i x] Hf].
  exists i, x. split; [exact Hf |].
  apply list_find_Some in Hf as (Hl & Hx & _). auto.
Qed.

End Find.

(** ** [parseInt] on the decimal rendering of a number *)

Section Decimal.

Implicit Types (c : ascii) (s acc : string) (n d : Z).

Lemma decimal_digit_facts c :
  is_decimal_digit c = true ->
  is_white_space c = false /\ Ascii.eqb c "-" = false /\
  Ascii.eqb c "+" = false /\ Ascii.eqb c "x" = false /\
  Ascii.eqb c "X" = false /\ radix_digit 10 c = Some (code c - 48).
Proof.
  unfold is_decimal_digit. intros [Hlo Hhi]%andb_true_iff.
  apply Z.leb_le in Hlo, Hhi.
  assert (forall c', code c' < 48 \/ 57 < code c' -> Ascii.eqb c c' = false)
    as Hne.
  { intros c' Hc'. apply Ascii.eqb_neq. intros ->. lia. }
  repeat split; try (apply Hne; vm_compute; intuition congruence).
  - unfold is_white_space.
    repeat (apply orb_false_iff; split); [apply andb_false_iff; right | |];
      lia.
  - unfold radix_digit, digit_value.
    replace ((48 <=? code c) && (code c <=? 57)) with true
      by (symmetry; apply andb_true_iff; split; apply Z.leb_le; lia).
    replace (code c - 48 <? 10) with true by (symmetry; apply Z.ltb_lt; lia).
    reflexivity.
Qed.

Lemma digit_char_code d : 0 <= d < 10 -> code (digit_char d) = 48 + d.
Proof.
  intros Hd. unfold code, digit_char.
  rewrite N_ascii_embedding by lia. lia.
Qed.

Lemma digit_char_decimal d : 0 <= d < 10 -> is_decimal_digit (digit_char d) = true.
Proof.
  intros Hd. unfold is_decimal_digit. rewrite (digit_char_code d Hd).
  apply andb_true_iff. split; apply Z.leb_le; lia.
Qed.

Lemma radix_digit_char d : 0 <= d < 10 -> radix_digit 10 (digit_char d) = Some d.
Proof.
  intros Hd.
  destruct (decimal_digit_facts _ (digit_char_decimal d Hd))
    as (_ & _ & _ & _ & _ & ->).
  rewrite (digit_char_code d Hd). f_equal. lia.
Qed.

(** A string of decimal digits is read in radix 10 from its first
    character on. *)
Lemma parseInt_decimal s :
  is_decimal s = true ->
  trim_start s = s /\ strip_sign s = (1, s) /\ strip_prefix s = (10, s) /\
  radix_prefix 10 s <> [].
Proof.
  destruct s as [|c s]; [discriminate |].
  unfold is_decimal. simpl. intros [Hc Hs]%andb_true_iff.
  destruct (decimal_digit_facts c Hc) as (Hws & Hm & Hp & _ & _ & Hd).
  repeat split.
  - simpl. rewrite Hws. reflexivity.
  - simpl. rewrite Hm, Hp. reflexivity.
  - destruct s as [|c2 s]; [reflexivity |].
    simpl in Hs. apply andb_true_iff in Hs as [Hc2 _].
    destruct (decimal_digit_facts c2 Hc2) as (_ & _ & _ & Hx & HX & _).
    simpl. rewrite Hx, HX, andb_false_r. reflexivity.
  - simpl. rewrite Hd. discriminate.
Qed.

Lemma decimal_digits_is_decimal (fuel : nat) n acc :
  0 <= n ->
  forallb is_decimal_digit (list_ascii_of_string acc) = true ->
  is_decimal (decimal_digits (S fuel) n acc) = true.
Proof.
  revert n acc. induction fuel as [|fuel IH]; intros n acc Hn Hacc.
  - assert (is_decimal (String (digit_char (n mod 10)) acc) = true) as Hone.
    { unfold is_decimal. simpl. rewrite Hacc, digit_char_decimal; [reflexivity |].
      apply Z.mod_pos_bound. lia. }
    simpl. destruct (n <? 10); exact Hone.
  - change (decimal_digits (S (S fuel)) n acc) with
      (if n <? 10 then String (digit_char (n mod 10)) acc
       else decimal_digits (S fuel) (n / 10)
              (String (digit_char (n mod 10)) acc)).
    assert (is_decimal_digit (digit_char (n mod 10)) = true) as Hd
      by (apply digit_char_decimal, Z.mod_pos_bound; lia).
    destruct (n <? 10).
    + unfold is_decimal. simpl. rewrite Hacc, Hd. reflexivity.
    + apply IH; [apply Z.div_pos; lia |].
      simpl. rewrite Hacc, Hd. reflexivity.
Qed.

Lemma decimal_digits_value (fuel : nat) n acc :
  0 <= n -> (Z.to_nat n < fuel)%nat ->
  radix_value 10 (radix_prefix 10 (decimal_digits fuel n acc)) =
    foldl (fun a d => a * 10 + d) n (radix_prefix 10 acc).
Proof.
  unfold radix_value.
  revert n acc. induction fuel as [|fuel IH]; intros n acc Hn Hfuel; [lia |].
  pose proof (Z.mod_pos_bound n 10 ltac:(lia)) as Hmod.
  pose proof (Z.div_mod n 10 ltac:(lia)) as Hdiv.
  simpl. destruct (n <? 10) eqn:Hlt.
  - apply Z.ltb_lt in Hlt. simpl. rewrite (radix_digit_char _ Hmod). simpl.
    rewrite Z.mod_small by lia. reflexivity.
  - apply Z.ltb_ge in Hlt.
    rewrite IH; [| apply Z.div_pos; lia |].
    + simpl. rewrite (radix_digit_char _ Hmod). simpl.
      f_equal. lia.
    + assert (n / 10 < n) by (apply Z.div_lt; lia). lia.
Qed.

Lemma parseInt_decimal_digits n :
  0 <= n ->
  let s := decimal_digits (S (Z.to_nat n)) n "" in
  strip_prefix s = (10, s) /\ parseInt s = Some n.
Proof.
  intros Hn s.
  destruct (parseInt_decimal s) as (Htrim & Hsign & Hpre & Hne).
  { apply decimal_digits_is_decimal; [exact Hn | reflexivity]. }
  split; [exact Hpre |].
  unfold parseInt. rewrite Htrim, Hsign, Hpre.
  pose proof (decimal_digits_value (S (Z.to_nat n)) n "" Hn ltac:(lia)) as Hval.
  fold s in Hval. simpl in Hval.
  destruct (radix_prefix 10 s) as [|d ds]; [congruence |].
  rewrite Hval. f_equal. lia.
Qed.

(** The path segment the client writes for an identifier is read back by
    the server as that identifier. *)
Lemma parseInt_number_to_string n : parseInt (number_to_string n) = Some n.
Proof.
  unfold number_to_string. destruct (n <? 0) eqn:Hneg.
  - apply Z.ltb_lt in Hneg.
    destruct (parseInt_decimal_digits (- n) ltac:(lia)) as [Hpre Hparse].
    set (s := decimal_digits (S (Z.to_nat (- n))) (- n) "") in *.
    unfold parseInt in *. simpl.
    destruct (parseInt_decimal s) as (Htrim & Hsign & _ & _).
    { apply decimal_digits_is_decimal; [lia | reflexivity]. }
    rewrite Htrim, Hsign in Hparse.
    destruct (strip_prefix s) as [R s2].
    destruct (radix_prefix R s2); [discriminate |].
    injection Hparse as Hparse. f_equal. lia.
  - apply Z.ltb_ge in Hneg. apply parseInt_decimal_digits. exact Hneg.
Qed.

Example parseInt_leading_digits : parseInt "1abc" = Some 1.
Proof. reflexivity. Qed.

Example parseInt_fraction : parseInt "2.5" = Some 2.
Proof. reflexivity. Qed.

Example parseInt_space_sign_hex : parseInt " -0x1F" = Some (-31).
Proof. reflexivity. Qed.

Example parseInt_no_digit : parseInt "abc" = None /\ parseInt "" = None.
Proof. split; reflexivity. Qed.

Example number_to_string_42 : number_to_string 42 = "42".
Proof. reflexivity. Qed.

End Decimal.

(** ** Updating a record *)

Section Put.

Implicit Types (id : string) (fields : obj) (patients : list obj).

Lemma put_patient_found id fields patients index old :
  list_find (id_matches (parseInt id)) patients = Some (index, old) ->
  put_patient id fields patients =
    (res_json (JObj (obj_lit [("message", JStr "Patient updated");
                              ("patient", JObj (spread old fields))])),
     <[index := spread old fields]> patients).
Proof.
  intros Hf. unfold put_patient. rewrite Hf, spread_empty. reflexivity.
Qed.

Lemma put_patient_absent id fields patients :
  list_find (id_matches (parseInt id)) patients = None ->
  put_patient id fields patients = (not_found, patients).
Proof. intros Hf. unfold put_patient. rewrite Hf. reflexivity. Qed.

(** What an update does to the array, position by position. *)
Lemma put_patient_lookup id fields patients (i : nat) (p : obj) :
  patients !! i = Some p ->
  (put_patient id fields patients).2 !! i = Some p \/
  (list_find (id_matches (parseInt id)) patients = Some (i, p) /\
   (put_patient id fields patients).2 !! i = Some (spread p fields)).
Proof.
  intros Hi.
  destruct (list_find (id_matches (parseInt id)) patients) as [[j old]|] eqn:Hf.
  - rewrite (put_patient_found _ _ _ _ _ Hf). simpl.
    destruct (decide (j = i)) as [->|Hne].
    + right. pose proof Hf as Hf'.
      apply list_find_Some in Hf' as (Hl & _ & _).
      assert (old = p) as -> by congruence.
      split; [reflexivity |].
      apply list_lookup_insert_eq. eapply lookup_lt_Some; eassumption.
    + left. rewrite list_lookup_insert_ne by exact Hne. exact Hi.
  - rewrite (put_patient_absent _ _ _ Hf). left. exact Hi.
Qed.

End Put.

(** C3: for an id that some record of the store carries, the update finds the
    first such record, stores in its place the shallow merge of the request
    body over it (a key absent from the body keeps its old value, a key of
    the body takes the body's value), leaves every other position as it was,
    and answers 200 with [{message, patient}], [patient] being the merged
    record. *)
Theorem put_patient_merges (id : string) (fields : obj) (patients : list obj) :
  (exists p, p ∈ patients /\ id_matches (parseInt id) p) ->
  exists (index : nat) (old merged : obj),
    patients !! index = Some old /\ id_matches (parseInt id) old /\
    (forall k : string, fields !! k = None -> merged !! k = old !! k) /\
    (forall (k : string) (v : json),
        fields !! k = Some v -> merged !! k = Some v) /\
    put_patient id fields patients =
      (Response 200 (JObj (obj_lit [("message", JStr "Patient updated");
                                    ("patient", JObj merged)])),
       <[index := merged]> patients) /\
    (put_patient id fields patients).2 !! index = Some merged /\
    (forall j : nat, j <> index ->
        (put_patient id fields patients).2 !! j = patients !! j) /\
    has_props ["message"; "patient"]
      (body (put_patient id fields patients).1) = true.
Proof.
  intros (p & Hin & Hp).
  destruct (find_present _ _ _ Hin Hp) as (index & old & Hf & Hl & Hold).
  exists index, old, (spread old fields).
  rewrite (put_patient_found _ _ _ _ _ Hf). simpl.
  repeat split; try assumption.
  - intros k Hk. rewrite lookup_spread, Hk. reflexivity.
  - intros k v Hk. rewrite lookup_spread, Hk. reflexivity.
  - apply list_lookup_insert_eq. eapply lookup_lt_Some; eassumption.
  - intros j Hj. apply list_lookup_insert_ne. congruence.
Qed.

Lemma put_patient_merges_witness :
  exists merged : obj,
    (put_patient "1" (obj_lit [("age", JNum 31)]) patients0).2 !! 0%nat
      = Some merged /\
    merged !! "age" = Some (JNum 31) /\
    merged !! "name" = Some (JStr "John Doe").
Proof.
  destruct (put_patient_merges "1" (obj_lit [("age", JNum 31)]) patients0)
    as (index & old & merged & Hl & Hm & Hkeep & Hnew & Hput & Hst & _).
  - exists (obj_lit [("id", JNum 1); ("name", JStr "John Doe");
                     ("age", JNum 30); ("diagnosis", JStr "Fever")]).
    split; [apply list_elem_of_here | vm_compute; reflexivity].
  - assert (index = 0%nat) as ->.
    { destruct index as [|[|index]]; [reflexivity | | ]; vm_compute in Hl, Hm.
      - injection Hl as <-. vm_compute in Hm. discriminate Hm.
      - discriminate Hl. }
    injection Hl as <-.
    exists merged. split; [exact Hst |]. split.
    + apply Hnew. vm_compute. reflexivity.
    + rewrite Hkeep; vm_compute; reflexivity.
Defined.

Lemma unmatched_not_found (id : string) (fields : obj) (patients : list obj) :
  Forall (fun p => ~ id_matches (parseInt id) p) patients ->
  get_patient id patients = not_found /\
  put_patient id fields patients = (not_found, patients).
Proof.
  intros Habs. apply find_absent in Habs. split.
  - unfold get_patient. rewrite Habs. reflexivity.
  - apply put_patient_absent, Habs.
Qed.

(** C4, as stated, fails: no record of the initial array carries the id
    ["1abc"], yet [GET /patients/1abc] answers 200 with John Doe's record,
    since [parseInt] reads the leading [1]. *)
Lemma absent_gives_not_found_fails :
  ~ absent_gives_not_found "1abc" (obj_lit [("age", JNum 31)]) patients0.
Proof.
  intros H. destruct H as [Hget _].
  - repeat constructor; intros [Hdec _]; vm_compute in Hdec; discriminate Hdec.
  - vm_compute in Hget. discriminate Hget.
Qed.

(** The update of the same request is answered 200 and changes the first
    record; ["2.5"] is served as [2] in the same way. *)
Example put_absent_id_changes_store :
  Forall (fun p => ~ carries_id "1abc" p) patients0 /\
  status (put_patient "1abc" (obj_lit [("age", JNum 31)]) patients0).1 = 200 /\
  (put_patient "1abc" (obj_lit [("age", JNum 31)]) patients0).2 <> patients0 /\
  Forall (fun p => ~ carries_id "2.5" p) patients0 /\
  status (get_patient "2.5" patients0) = 200.
Proof.
  split; [| split; [| split; [| split]]].
  - repeat constructor; intros [Hdec _]; vm_compute in Hdec; discriminate Hdec.
  - reflexivity.
  - intros Heq. apply (f_equal (fun l => l !! 0%nat ≫= (.!! "age"))) in Heq.
    vm_compute in Heq. discriminate Heq.
  - repeat constructor; intros [Hdec _]; vm_compute in Hdec; discriminate Hdec.
  - reflexivity.
Qed.

(** C4, amended: when [parseInt] reads from the id no integer, or reads a
    safe integer that no record of the store has as its id, both the read
    and the update answer 404 with [{error: "Patient not found"}], and the
    update leaves the array exactly as it was.  This holds in particular for
    every id from which [parseInt] reads nothing, and for every decimal id
    in the safe range that no record carries. *)
Theorem unmatched_id_not_found
    (id : string) (fields : obj) (patients : list obj) :
  (forall n : Z, parseInt id = Some n -> safe_integer n) ->
  (Forall (fun p => ~ id_matches (parseInt id) p) patients ->
   get_patient id patients =
     Response 404 (JObj (obj_lit [("error", JStr "Patient not found")])) /\
   put_patient id fields patients =
     (Response 404 (JObj (obj_lit [("error", JStr "Patient not found")])),
      patients)) /\
  (parseInt id = None ->
   get_patient id patients =
     Response 404 (JObj (obj_lit [("error", JStr "Patient not found")])) /\
   put_patient id fields patients =
     (Response 404 (JObj (obj_lit [("error", JStr "Patient not found")])),
      patients)) /\
  (is_decimal id = true -> absent_gives_not_found id fields patients).
Proof.
  intros _. split; [| split].
  - apply unmatched_not_found.
  - intros Hnan. apply unmatched_not_found.
    apply Forall_forall. intros p _. rewrite Hnan.
    unfold id_matches, strict_eq_num. destruct (p !! "id") as [[]|]; discriminate.
  - intros Hdec Habs. apply unmatched_not_found.
    eapply Forall_impl; [exact Habs |].
    intros p Hp Hm. apply Hp. split; [exact Hdec | exact Hm].
Qed.

Lemma unmatched_id_not_found_witness :
  (get_patient "99" patients0 =
     Response 404 (JObj (obj_lit [("error", JStr "Patient not found")])) /\
   put_patient "99" (obj_lit [("age", JNum 29)]) patients0 =
     (Response 404 (JObj (obj_lit [("error", JStr "Patient not found")])),
      patients0)) /\
  get_patient "abc" patients0 =
    Response 404 (JObj (obj_lit [("error", JStr "Patient not found")])) /\
  absent_gives_not_found "99" (obj_lit [("age", JNum 29)]) patients0.
Proof.
  destruct (unmatched_id_not_found "99" (obj_lit [("age", JNum 29)]) patients0)
    as (Hany & _ & Hdec).
  { intros n Hn. vm_compute in Hn. injection Hn as <-.
    unfold safe_integer. lia. }
  destruct (unmatched_id_not_found "abc" ∅ patients0) as (_ & Hnan & _).
  { intros n Hn. vm_compute in Hn. discriminate Hn. }
  split; [| split].
  - apply Hany. repeat constructor; vm_compute; discriminate.
  - apply Hnan. reflexivity.
  - apply Hdec. reflexivity.
Defined.

(** C1, as stated, fails: a body with an ["id"] property replaces the
    identifier.  [PUT /patients/1 {id: 99}] on the initial array leaves the
    first record with identifier 99. *)
Lemma put_keeps_id_fails :
  ~ put_keeps_id "1" (obj_lit [("id", JNum 99)]) patients0.
Proof.
  intros H.
  destruct (H 0%nat (obj_lit [("id", JNum 1); ("name", JStr "John Doe");
                              ("age", JNum 30); ("diagnosis", JStr "Fever")]))
    as (p & Hp & Hid & _).
  - reflexivity.
  - vm_compute. reflexivity.
  - vm_compute in Hp. injection Hp as <-. vm_compute in Hid. discriminate Hid.
Qed.

(** C1, amended: an update whose body has no ["id"] property leaves the
    identifier of every record carrying the addressed id as it was, so the
    stored record's id still equals the id of the request; when the body has
    an ["id"] property, the record the update addresses gets that value as
    its identifier. *)
Theorem put_keeps_id_unless_in_body
    (id : string) (fields : obj) (patients : list obj) :
  (fields !! "id" = None -> put_keeps_id id fields patients) /\
  (forall (v : json) (index : nat) (old : obj),
      fields !! "id" = Some v ->
      list_find (id_matches (parseInt id)) patients = Some (index, old) ->
      exists p, (put_patient id fields patients).2 !! index = Some p /\
                p !! "id" = Some v).
Proof.
  split.
  - intros Hfree index old Hl Hold.
    destruct (put_patient_lookup id fields patients index old Hl)
      as [Hsame | [_ Hupd]].
    + exists old. auto.
    + exists (spread old fields). split; [exact Hupd |].
      assert (spread old fields !! "id" = old !! "id") as Hid
        by (rewrite lookup_spread, Hfree; reflexivity).
      split; [exact Hid |].
      unfold id_matches in *. rewrite Hid. exact Hold.
  - intros v index old Hv Hf.
    exists (spread old fields).
    rewrite (put_patient_found _ _ _ _ _ Hf). simpl. split.
    + apply list_find_Some in Hf as (Hl & _ & _).
      apply list_lookup_insert_eq. eapply lookup_lt_Some; eassumption.
    + rewrite lookup_spread, Hv. reflexivity.
Qed.

Lemma put_keeps_id_unless_in_body_witness :
  put_keeps_id "2" (obj_lit [("age", JNum 29)]) patients0 /\
  exists p, (put_patient "2" (obj_lit [("id", JNum 7)]) patients0).2 !! 1%nat
              = Some p /\ p !! "id" = Some (JNum 7).
Proof.
  split.
  - apply (put_keeps_id_unless_in_body "2" (obj_lit [("age", JNum 29)]) patients0).
    vm_compute. reflexivity.
  - apply (proj2 (put_keeps_id_unless_in_body
                    "2" (obj_lit [("id", JNum 7)]) patients0)
             (JNum 7) 1%nat
             (obj_lit [("id", JNum 2); ("name", JStr "Jane Doe");
                       ("age", JNum 28); ("diagnosis", JStr "Cough")])).
    + vm_compute. reflexivity.
    + vm_compute. reflexivity.
Defined.

(** ** Creating a record *)

Section Post.

Implicit Types (fields : obj) (patients : list obj).

Lemma patient_of_post fields patients :
  patient_of (post_patients fields patients).1 =
    Some (spread (obj_lit [("id", JNum (Z.of_nat (length patients) + 1))])
            fields).
Proof. reflexivity. Qed.

Lemma post_patients_array fields patients :
  (post_patients fields patients).2 =
    (patients ++
       [spread (obj_lit [("id", JNum (Z.of_nat (length patients) + 1))])
          fields])%list.
Proof. reflexivity. Qed.

(** The identifier of the record a creation builds. *)
Lemma new_patient_id fields (n : Z) :
  spread (obj_lit [("id", JNum n)]) fields !! "id" =
    match fields !! "id" with Some v => Some v | None => Some (JNum n) end.
Proof.
  rewrite lookup_spread, obj_lit_cons_lookup.
  destruct (fields !! "id"); reflexivity.
Qed.

Lemma ids_sequential_start : ids_sequential patients0.
Proof.
  intros [|[|i]] p Hp; simpl in Hp; [| | discriminate Hp];
    injection Hp as <-; vm_compute; reflexivity.
Qed.

Lemma ids_sequential_post fields patients :
  fields !! "id" = None ->
  ids_sequential patients ->
  ids_sequential (post_patients fields patients).2.
Proof.
  intros Hfree Hseq i p. rewrite post_patients_array.
  intros [Hp | [Hi Hp]]%lookup_app_Some.
  - apply Hseq, Hp.
  - apply list_lookup_singleton_Some in Hp as [Hz <-].
    rewrite new_patient_id, Hfree.
    do 2 f_equal. lia.
Qed.

Lemma ids_sequential_put (id : string) fields patients :
  fields !! "id" = None ->
  ids_sequential patients ->
  ids_sequential (put_patient id fields patients).2.
Proof.
  intros Hfree Hseq i p Hp.
  assert (exists q, patients !! i = Some q) as [q Hq].
  { apply lookup_lt_is_Some. apply lookup_lt_Some in Hp.
    unfold put_patient in Hp.
    destruct (list_find _ patients) as [[j old]|]; simpl in Hp;
      [rewrite length_insert in Hp |]; exact Hp. }
  destruct (put_patient_lookup id fields patients i q Hq) as [Hs | [_ Hs]];
    rewrite Hs in Hp; injection Hp as <-.
  - apply Hseq, Hq.
  - rewrite lookup_spread, Hfree. apply Hseq, Hq.
Qed.

(** As long as no request body carries an ["id"] property, the record at
    position [i] has identifier [i + 1]. *)
Lemma reachable_ids_sequential patients :
  reachable id_free patients -> ids_sequential patients.
Proof.
  induction 1 as [| r patients _ IH Hr].
  - apply ids_sequential_start.
  - destruct r; simpl in *; try exact IH.
    + apply ids_sequential_post; assumption.
    + apply ids_sequential_put; assumption.
Qed.

(** Under sequential identifiers every identifier is at most the count. *)
Lemma ids_sequential_below patients (q : obj) (n : Z) :
  ids_sequential patients ->
  q ∈ patients -> q !! "id" = Some (JNum n) ->
  n < Z.of_nat (length patients) + 1.
Proof.
  intros Hseq [i Hi]%list_elem_of_lookup Hn.
  pose proof (lookup_lt_Some _ _ _ Hi) as Hlt.
  rewrite (Hseq i q Hi) in Hn. injection Hn as <-. lia.
Qed.

Lemma ids_sequential_no_match patients :
  ids_sequential patients ->
  list_find (id_matches (Some (Z.of_nat (length patients) + 1))) patients = None.
Proof.
  intros Hseq. apply list_find_None, Forall_lookup.
  intros i q Hi Hm. unfold id_matches in Hm.
  pose proof (lookup_lt_Some _ _ _ Hi) as Hlt.
  rewrite (Hseq i q Hi) in Hm. simpl in Hm.
  apply bool_decide_eq_true in Hm. lia.
Qed.

(** Reading back a record just created, when no older record answers to its
    identifier. *)
Lemma get_after_post_fresh fields patients :
  fields !! "id" = None ->
  list_find (id_matches (Some (Z.of_nat (length patients) + 1))) patients = None ->
  get_after_post fields patients.
Proof.
  intros Hfree Hnone.
  assert (forall id : string,
             id_matches (parseInt id)
               (spread (obj_lit [("id", JNum (Z.of_nat (length patients) + 1))])
                  fields) ->
             get_patient id (post_patients fields patients).2 =
               res_json (JObj (spread
                 (obj_lit [("id", JNum (Z.of_nat (length patients) + 1))])
                 fields))) as Hget.
  { intros id Hid. unfold id_matches in Hid.
    rewrite new_patient_id, Hfree in Hid.
    destruct (parseInt id) as [m|] eqn:Hparse; [| discriminate Hid].
    simpl in Hid. apply bool_decide_eq_true in Hid. subst m.
    unfold get_patient. rewrite Hparse, post_patients_array.
    rewrite list_find_app_r by exact Hnone.
    simpl. rewrite decide_True; [reflexivity |].
    unfold id_matches. rewrite new_patient_id, Hfree. simpl.
    apply bool_decide_eq_true. reflexivity. }
  eexists. split; [apply patient_of_post |]. split; [exact Hget |].
  intros n Hn. unfold getPatient_request, handle, fst. apply Hget.
  unfold id_matches. rewrite Hn, parseInt_number_to_string. simpl.
  apply bool_decide_eq_true. reflexivity.
Qed.

End Post.

(** C2, as stated, fails: [POST /patients {id: 1}] on the initial array
    creates a record whose identifier is 1, not the count plus one. *)
Lemma post_assigns_fresh_id_fails :
  ~ post_assigns_fresh_id (obj_lit [("id", JNum 1)]) patients0.
Proof.
  intros (p & Hp & Hid & _).
  vm_compute in Hp. injection Hp as <-.
  vm_compute in Hid. discriminate Hid.
Qed.

(** Nor is count plus one above every identifier once a body has supplied
    one: after [POST /patients {id: 100}] the array holds three records, and
    a creation with an empty body gets identifier 4. *)
Example post_id_below_supplied_id :
  reachable any_request (post_patients (obj_lit [("id", JNum 100)]) patients0).2 /\
  ~ post_assigns_fresh_id ∅
      (post_patients (obj_lit [("id", JNum 100)]) patients0).2.
Proof.
  split.
  - apply (reachable_step any_request
             (POST_patients (obj_lit [("id", JNum 100)])) patients0);
      [apply reachable_start | exact I].
  - intros (p & _ & _ & Hlt).
    assert (100 < Z.of_nat (length (post_patients (obj_lit [("id", JNum 100)])
                                      patients0).2) + 1) as Habs.
    { apply (Hlt (obj_lit [("id", JNum 100)])); [| reflexivity].
      apply list_elem_of_lookup. exists 2%nat. reflexivity. }
    vm_compute in Habs. discriminate Habs.
Qed.

(** C2, amended: for fields without an ["id"] property, [POST /patients]
    gives the new record the identifier count plus one; and in a store whose
    earlier requests carried no ["id"] property either, that identifier is
    strictly greater than every identifier in the store. *)
Theorem post_assigns_count_plus_one (fields : obj) (patients : list obj) :
  fields !! "id" = None ->
  (exists p, patient_of (post_patients fields patients).1 = Some p /\
             p !! "id" = Some (JNum (Z.of_nat (length patients) + 1))) /\
  (reachable id_free patients -> post_assigns_fresh_id fields patients).
Proof.
  intros Hfree.
  assert (spread (obj_lit [("id", JNum (Z.of_nat (length patients) + 1))])
            fields !! "id"
          = Some (JNum (Z.of_nat (length patients) + 1))) as Hid
    by (rewrite new_patient_id, Hfree; reflexivity).
  split.
  - eexists. split; [apply patient_of_post | exact Hid].
  - intros Hreach. eexists. split; [apply patient_of_post |].
    split; [exact Hid |].
    intros q n. apply ids_sequential_below, reachable_ids_sequential, Hreach.
Qed.

Lemma post_assigns_count_plus_one_witness :
  post_assigns_fresh_id (obj_lit [("name", JStr "Jane"); ("age", JNum 28)])
    patients0.
Proof.
  apply (post_assigns_count_plus_one
           (obj_lit [("name", JStr "Jane"); ("age", JNum 28)]) patients0).
  - vm_compute. reflexivity.
  - apply reachable_start.
Defined.

(** C5, as stated, fails: [POST /patients {id: 1, name: "Dup"}] on the
    initial array returns the record [{id: 1, name: "Dup"}], and
    [GET /patients/1] afterwards returns John Doe's record. *)
Lemma get_after_post_fails :
  ~ get_after_post (obj_lit [("id", JNum 1); ("name", JStr "Dup")]) patients0.
Proof.
  intros (p & Hp & _ & Hget).
  vm_compute in Hp. injection Hp as <-.
  specialize (Hget 1 eq_refl).
  vm_compute in Hget. discriminate Hget.
Qed.

(** C5, amended: for fields without an ["id"] property, in a store whose
    earlier requests carried no ["id"] property either, [GET] on the
    identifier of the record [POST /patients] returned gives back exactly
    that record. *)
Theorem get_after_post_id_free (fields : obj) (patients : list obj) :
  fields !! "id" = None ->
  reachable id_free patients ->
  get_after_post fields patients.
Proof.
  intros Hfree Hreach.
  apply get_after_post_fresh; [exact Hfree |].
  apply ids_sequential_no_match, reachable_ids_sequential, Hreach.
Qed.

Lemma get_after_post_id_free_witness :
  get_after_post (obj_lit [("name", JStr "Jane"); ("age", JNum 28)]) patients0.
Proof.
  apply (get_after_post_id_free
           (obj_lit [("name", JStr "Jane"); ("age", JNum 28)]) patients0).
  - vm_compute. reflexivity.
  - apply reachable_start.
Defined.

(** Without the condition on the store the read can return an older record:
    after [POST /patients {id: 4, name: "x"}] a creation with body
    [{name: "y"}] gets identifier 4 as well, and [GET /patients/4] finds the
    older record first. *)
Example get_after_post_needs_id_free_store :
  ~ get_after_post (obj_lit [("name", JStr "y")])
      (post_patients (obj_lit [("id", JNum 4); ("name", JStr "x")]) patients0).2.
Proof.
  intros (p & Hp & _ & Hget).
  vm_compute in Hp. injection Hp as <-.
  specialize (Hget 4 eq_refl).
  vm_compute in Hget. discriminate Hget.
Qed.

(** ** Reading a record *)

Lemma get_patient_answers (id : string) (patients : list obj) :
  get_answers id patients.
Proof.
  unfold get_answers, get_patient.
  destruct (list_find _ patients) as [[i p]|] eqn:Hf; [left | right; reflexivity].
  apply list_find_Some in Hf as (Hl & Hp & _).
  exists p. split; [| split; [exact Hp | reflexivity]].
  apply list_elem_of_lookup. exists i. exact Hl.
Qed.

Lemma get_patient_NaN (id : string) (patients : list obj) :
  parseInt id = None -> get_patient id patients = not_found.
Proof.
  intros Hnan. unfold get_patient. rewrite Hnan.
  rewrite find_absent; [reflexivity |].
  apply Forall_forall. intros p _. unfold id_matches, strict_eq_num.
  destruct (p !! "id") as [[]|]; discriminate.
Qed.

(** C6, as stated, fails: ["1abc"] is not a decimal integer, and
    [GET /patients/1abc] on the initial array answers 200 with John Doe's
    record, since [parseInt] reads the leading [1]. *)
Lemma get_rejects_malformed_fails :
  ~ get_rejects_malformed "1abc" patients0.
Proof.
  intros [_ Hmal]. specialize (Hmal eq_refl).
  vm_compute in Hmal. discriminate Hmal.
Qed.

(** C6, amended: for every path segment the read answers, either with a
    record of the store whose identifier equals what [parseInt] reads from
    the segment, or with the not-found response; a segment from which
    [parseInt] reads no integer always yields not-found; and two segments
    that [parseInt] reads alike are answered alike. *)
Theorem get_patient_total (id : string) (patients : list obj) :
  get_answers id patients /\
  (parseInt id = None ->
   get_patient id patients =
     Response 404 (JObj (obj_lit [("error", JStr "Patient not found")]))) /\
  (forall id' : string,
      parseInt id' = parseInt id ->
      get_patient id' patients = get_patient id patients).
Proof.
  split; [apply get_patient_answers |]. split.
  - apply get_patient_NaN.
  - intros id' Heq. unfold get_patient. rewrite Heq. reflexivity.
Qed.

Lemma get_patient_total_witness :
  get_patient "abc" patients0 =
    Response 404 (JObj (obj_lit [("error", JStr "Patient not found")])) /\
  get_patient "2nd" patients0 = get_patient "2" patients0.
Proof.
  destruct (get_patient_total "abc" patients0) as (_ & Hnan & _).
  destruct (get_patient_total "2" patients0) as (_ & _ & Hsame).
  split; [apply Hnan | apply Hsame]; vm_compute; reflexivity.
Defined.

(** ** The mocked feature routes *)

Lemma clinical_notes_cases (b : obj) :
  clinical_notes b =
    Response 200 (JObj (obj_lit
      [("note", JStr "SOAP note: Subjective, Objective, Assessment, Plan (mock)")])) \/
  clinical_notes b =
    Response 200 (JObj (obj_lit
      [("note", JStr "Discharge Summary generated successfully (mock)")])) \/
  clinical_notes b =
    Response 200 (JObj (obj_lit
      [("note", JStr "Radiology Report generated successfully (mock)")])) \/
  clinical_notes b =
    Response 400 (JObj (obj_lit [("error", JStr "Invalid note type")])).
Proof.
  unfold clinical_notes.
  destruct (strict_eq_str (b !! "note_type") "soap"); [auto |].
  destruct (strict_eq_str (b !! "note_type") "discharge"); [auto |].
  destruct (strict_eq_str (b !! "note_type") "radiology"); auto.
Qed.

(** The sibling mock route does send [success]. *)
Example image_enhancement_has_success (b : obj) :
  has_props ["success"] (body (image_enhancement b)) = true /\
  truthy (obj_lit [("success", JBool true)] !! "success") = true.
Proof. split; reflexivity. Qed.

(** C7 on the code: [POST /clinical-notes {note_type: "soap"}] answers 200
    with the single property [note]; no request makes the route answer with
    a body that has the properties [success] and [content], so the frontend's
    [handleGenerate] never shows a note; a body whose [note_type] is none of
    the three names is answered 400 with [{error: "Invalid note type"}]. *)
Theorem clinical_notes_answers :
  clinical_notes (obj_lit [("note_type", JStr "soap")]) =
    Response 200 (JObj (obj_lit
      [("note", JStr "SOAP note: Subjective, Objective, Assessment, Plan (mock)")])) /\
  (forall b : obj,
      has_props ["success"; "content"] (body (clinical_notes b)) = false) /\
  (forall b m : obj,
      body (clinical_notes b) = JObj m -> handleGenerate_note m = None) /\
  (forall b : obj,
      strict_eq_str (b !! "note_type") "soap" = false ->
      strict_eq_str (b !! "note_type") "discharge" = false ->
      strict_eq_str (b !! "note_type") "radiology" = false ->
      clinical_notes b =
        Response 400 (JObj (obj_lit [("error", JStr "Invalid note type")]))).
Proof.
  split; [reflexivity |]. split; [| split].
  - intros b.
    destruct (clinical_notes_cases b) as [-> | [-> | [-> | ->]]]; reflexivity.
  - intros b m.
    destruct (clinical_notes_cases b) as [-> | [-> | [-> | ->]]];
      simpl; intros [= <-]; reflexivity.
  - intros b H1 H2 H3. unfold clinical_notes. rewrite H1, H2, H3. reflexivity.
Qed.

Lemma clinical_notes_answers_witness :
  clinical_notes (obj_lit [("note_type", JStr "unknown")]) =
    Response 400 (JObj (obj_lit [("error", JStr "Invalid note type")])) /\
  handleGenerate_note
    (obj_lit [("note", JStr "Radiology Report generated successfully (mock)")])
    = None.
Proof.
  destruct clinical_notes_answers as (_ & _ & Hshow & Hbad).
  split.
  - apply Hbad; reflexivity.
  - apply (Hshow (obj_lit [("note_type", JStr "radiology")])). reflexivity.
Defined.

(** C8 on the code: for every request [POST /icd10-coding] answers 200 with
    the single property [codes], a list of two [{code, description}] items;
    the body has none of [success], [suggested_codes], [total_suggestions],
    the items have none of [confidence], [valid], [reasoning], and the
    frontend's [handleSuggest] never shows a suggestion. *)
Theorem icd10_coding_answers (b : obj) :
  icd10_coding b =
    Response 200 (JObj (obj_lit
      [("codes", JArr
         [JObj (obj_lit [("code", JStr "A00"); ("description", JStr "Cholera")]);
          JObj (obj_lit [("code", JStr "B20");
                         ("description", JStr "HIV disease")])])])) /\
  has_props ["success"] (body (icd10_coding b)) = false /\
  has_props ["suggested_codes"] (body (icd10_coding b)) = false /\
  has_props ["total_suggestions"] (body (icd10_coding b)) = false /\
  has_props ["codes"] (body (icd10_coding b)) = true /\
  (exists m items,
      body (icd10_coding b) = JObj m /\ m !! "codes" = Some (JArr items) /\
      Forall (fun item =>
                has_props ["code"; "description"] item = true /\
                has_props ["confidence"] item = false /\
                has_props ["valid"] item = false /\
                has_props ["reasoning"] item = false) items /\
      handleSuggest_codes m = None).
Proof.
  split; [reflexivity |]. do 4 (split; [reflexivity |]).
  eexists. eexists. split; [reflexivity |]. split; [reflexivity |].
  split; [| reflexivity].
  repeat constructor.
Qed.

(** ** Caller-supplied identifiers and the initial store *)

(** C9: when the body of [POST /patients] has an ["id"] property, the
    created record, returned and appended to the array, has the body's value
    as identifier in place of count plus one; so for any record of the store
    a caller can create another record with the same identifier. *)
Theorem post_body_id_overrides (patients : list obj) :
  (forall (fields : obj) (v : json),
      fields !! "id" = Some v ->
      exists p,
        patient_of (post_patients fields patients).1 = Some p /\
        (post_patients fields patients).2 !! length patients = Some p /\
        p !! "id" = Some v) /\
  (forall (i : nat) (q : obj) (v : json),
      patients !! i = Some q -> q !! "id" = Some v ->
      exists p,
        patient_of (post_patients (obj_lit [("id", v)]) patients).1 = Some p /\
        (post_patients (obj_lit [("id", v)]) patients).2 !! i = Some q /\
        (post_patients (obj_lit [("id", v)]) patients).2 !! length patients
          = Some p /\
        i <> length patients /\ p !! "id" = q !! "id").
Proof.
  assert (forall fields : obj,
             (post_patients fields patients).2 !! length patients =
               patient_of (post_patients fields patients).1) as Hlast.
  { intros fields. rewrite patient_of_post, post_patients_array.
    rewrite lookup_app_r by reflexivity.
    rewrite Nat.sub_diag. reflexivity. }
  split.
  - intros fields v Hv. eexists. split; [apply patient_of_post |].
    split; [rewrite Hlast; apply patient_of_post |].
    rewrite new_patient_id, Hv. reflexivity.
  - intros i q v Hq Hv. eexists.
    split; [apply patient_of_post |].
    split; [rewrite post_patients_array; apply lookup_app_l_Some, Hq |].
    split; [rewrite Hlast; apply patient_of_post |].
    split; [apply lookup_lt_Some in Hq; lia |].
    rewrite new_patient_id, obj_lit_cons_lookup, Hv. reflexivity.
Qed.

Lemma post_body_id_overrides_witness :
  exists p,
    (post_patients (obj_lit [("id", JNum 1); ("name", JStr "Dup")])
       patients0).2 !! 2%nat = Some p /\
    p !! "id" = Some (JNum 1) /\
    p !! "id" = (obj_lit [("id", JNum 1); ("name", JStr "John Doe");
                          ("age", JNum 30); ("diagnosis", JStr "Fever")]) !! "id".
Proof.
  destruct (proj1 (post_body_id_overrides patients0)
              (obj_lit [("id", JNum 1); ("name", JStr "Dup")]) (JNum 1))
    as (p & _ & Hlast & Hid).
  - vm_compute. reflexivity.
  - exists p. split; [exact Hlast |]. split; [exact Hid |].
    rewrite Hid. vm_compute. reflexivity.
Defined.

(** C10: a freshly started process holds exactly the two seed records; the
    first [GET /patients] answers 200 with these two records in this order;
    and the first [POST /patients] builds its record over the identifier 3,
    which is the record's identifier whenever the body has no ["id"]
    property of its own. *)
Theorem fresh_process_store :
  length patients0 = 2%nat /\
  patients0 !! 0%nat =
    Some (<["id" := JNum 1]> (<["name" := JStr "John Doe"]>
           (<["age" := JNum 30]> (<["diagnosis" := JStr "Fever"]> ∅)))) /\
  patients0 !! 1%nat =
    Some (<["id" := JNum 2]> (<["name" := JStr "Jane Doe"]>
           (<["age" := JNum 28]> (<["diagnosis" := JStr "Cough"]> ∅)))) /\
  handle GET_patients patients0 =
    (Response 200
       (JArr [JObj (obj_lit [("id", JNum 1); ("name", JStr "John Doe");
                             ("age", JNum 30); ("diagnosis", JStr "Fever")]);
              JObj (obj_lit [("id", JNum 2); ("name", JStr "Jane Doe");
                             ("age", JNum 28); ("diagnosis", JStr "Cough")])]),
     patients0) /\
  (forall fields : obj,
      patient_of (handle (POST_patients fields) patients0).1 =
        Some (spread (obj_lit [("id", JNum 3)]) fields)) /\
  (forall fields : obj,
      fields !! "id" = None ->
      exists p,
        patient_of (handle (POST_patients fields) patients0).1 = Some p /\
        p !! "id" = Some (JNum 3) /\ p !! "id" <> Some (JNum 1)).
Proof.
  split; [reflexivity |].
  split; [vm_compute; reflexivity |].
  split; [vm_compute; reflexivity |].
  split; [reflexivity |].
  split; [reflexivity |].
  intros fields Hfree. eexists. split; [reflexivity |].
  rewrite new_patient_id, Hfree. split; [reflexivity | discriminate].
Qed.

Lemma fresh_process_store_witness :
  exists p,
    patient_of (handle (POST_patients (obj_lit [("name", JStr "Jane")]))
                  patients0).1 = Some p /\
    p !! "id" = Some (JNum 3).
Proof.
  destruct fresh_process_store as (_ & _ & _ & _ & _ & Hfirst).
  destruct (Hfirst (obj_lit [("name", JStr "Jane")])) as (p & Hp & Hid & _).
  - vm_compute. reflexivity.
  - exists p. split; [exact Hp | exact Hid].
Defined.

(** ** Further properties of the patient store *)

Section Store.

Implicit Types (id : string) (fields body : obj) (patients : list obj)
  (r : request) (rs : list request).

Lemma spread_idemp (o fields : obj) :
  spread (spread o fields) fields = spread o fields.
Proof.
  apply map_eq. intros k. rewrite !lookup_spread.
  destruct (fields !! k); reflexivity.
Qed.

Lemma spread_nothing (o : obj) : spread o ∅ = o.
Proof.
  apply map_eq. intros k. rewrite lookup_spread, lookup_empty. reflexivity.
Qed.

Lemma handle_length r patients :
  length (handle r patients).2 =
    (length patients + (if is_create r then 1 else 0))%nat.
Proof.
  destruct r; simpl; try lia.
  - rewrite length_app. simpl. lia.
  - unfold put_patient.
    destruct (list_find _ patients) as [[i old]|]; simpl;
      [rewrite length_insert |]; lia.
Qed.

Lemma handle_keeps_positions r patients (i : nat) :
  is_Some (patients !! i) -> is_Some ((handle r patients).2 !! i).
Proof.
  intros Hi. apply lookup_lt_is_Some. apply lookup_lt_is_Some in Hi.
  rewrite handle_length. lia.
Qed.

Lemma run_cons r rs patients :
  run (r :: rs) patients = run rs (handle r patients).2.
Proof. reflexivity. Qed.

Lemma run_snoc rs r patients :
  run (rs ++ [r]) patients = (handle r (run rs patients)).2.
Proof. unfold run. rewrite foldl_app. reflexivity. Qed.

(** The reachable arrays are the results of [run] from the initial one. *)
Lemma reachable_run (allowed : request -> Prop) patients :
  reachable allowed patients <->
  exists rs, Forall allowed rs /\ patients = run rs patients0.
Proof.
  split.
  - induction 1 as [| r patients _ [rs [Hall ->]] Hr].
    + exists []. split; [constructor | reflexivity].
    + exists (rs ++ [r])%list. split.
      * apply Forall_app. split; [exact Hall | repeat constructor; exact Hr].
      * rewrite run_snoc. reflexivity.
  - intros [rs [Hall ->]].
    induction rs as [| r rs IH] using rev_ind.
    + apply reachable_start.
    + apply Forall_app in Hall as [Hall Hr].
      rewrite run_snoc. apply reachable_step; [apply IH, Hall |].
      apply Forall_inv in Hr. exact Hr.
Qed.

Lemma handle_has_id r patients :
  Forall (fun p => is_Some (p !! "id")) patients ->
  Forall (fun p => is_Some (p !! "id")) (handle r patients).2.
Proof.
  intros Hall. destruct r as [| b | b | b | | s | b | s b]; simpl;
    try exact Hall.
  - apply Forall_app. split; [exact Hall |]. repeat constructor.
    rewrite new_patient_id. destruct (b !! "id"); eauto.
  - apply Forall_lookup. intros i p Hp.
    assert (exists q, patients !! i = Some q) as [q Hq].
    { apply lookup_lt_is_Some. apply lookup_lt_Some in Hp.
      pose proof (handle_length (PUT_patient s b) patients) as Hlen.
      simpl in Hlen. lia. }
    pose proof (Forall_lookup_1 _ _ _ _ Hall Hq) as Hid.
    destruct (put_patient_lookup s b patients i q Hq) as [Hs | [_ Hs]];
      rewrite Hs in Hp; injection Hp as <-; [exact Hid |].
    rewrite lookup_spread. destruct (b !! "id"); eauto.
Qed.

End Store.

(** X1: whatever requests a process has served, every record of the store
    has an ["id"] property. *)
Theorem store_records_have_id (patients : list obj) :
  reachable any_request patients ->
  Forall (fun p => is_Some (p !! "id")) patients.
Proof.
  induction 1 as [| r patients _ IH _].
  - repeat constructor; vm_compute; eauto.
  - apply handle_has_id, IH.
Qed.

Lemma store_records_have_id_witness :
  Forall (fun p => is_Some (p !! "id"))
    (handle (PUT_patient "1" (obj_lit [("id", JNull)])) patients0).2.
Proof.
  apply (store_records_have_id
           (handle (PUT_patient "1" (obj_lit [("id", JNull)])) patients0).2).
  apply (reachable_step any_request
           (PUT_patient "1" (obj_lit [("id", JNull)])) patients0).
  - apply reachable_start.
  - exact I.
Defined.

(** X2: no request removes a record: after a sequence of requests the store
    holds as many records more as the sequence has [POST /patients]
    requests, and every position that held a record still holds one. *)
Theorem run_length (rs : list request) (patients : list obj) :
  length (run rs patients) =
    (length patients + length (filter (fun r => is_create r = true) rs))%nat /\
  (forall i : nat, is_Some (patients !! i) -> is_Some (run rs patients !! i)).
Proof.
  revert patients. induction rs as [| r rs IH]; intros patients.
  - split; [simpl; lia | auto].
  - rewrite run_cons. destruct (IH (handle r patients).2) as [Hlen Hpos].
    split.
    + rewrite Hlen, handle_length.
      destruct (is_create r) eqn:Hc.
      * rewrite filter_cons_True by exact Hc. simpl. lia.
      * rewrite filter_cons_False by (rewrite Hc; discriminate). lia.
    + intros i Hi. apply Hpos, handle_keeps_positions, Hi.
Qed.

Lemma run_length_witness :
  is_Some (run [PUT_patient "1" (obj_lit [("age", JNum 31)]);
                POST_patients ∅; GET_patient "9"] patients0 !! 1%nat).
Proof.
  apply (proj2 (run_length [PUT_patient "1" (obj_lit [("age", JNum 31)]);
                            POST_patients ∅; GET_patient "9"] patients0) 1%nat).
  vm_compute. eauto.
Defined.

(** X3: creations are appended in call order: after [POST /patients] with
    the bodies [bs] one after another, the store is the old one followed by
    the created records, the one for the body at position [i] built over the
    identifier count plus [i] plus one, and [GET /patients] lists exactly
    that. *)
Theorem run_creates (bs : list obj) (patients : list obj) :
  run (POST_patients <$> bs) patients =
    (patients ++ imap (fun i b => new_patient (length patients + i) b) bs)%list /\
  get_patients (run (POST_patients <$> bs) patients) =
    Response 200
      (JArr (JObj <$> (patients ++
               imap (fun i b => new_patient (length patients + i) b) bs)%list)).
Proof.
  assert (run (POST_patients <$> bs) patients =
    (patients ++ imap (fun i b => new_patient (length patients + i) b) bs)%list)
    as Hrun.
  { revert patients. induction bs as [| b bs IH]; intros patients.
    - simpl. rewrite app_nil_r. reflexivity.
    - rewrite fmap_cons, run_cons. simpl handle. rewrite post_patients_array.
      rewrite IH, <- app_assoc. f_equal. simpl. f_equal.
      + unfold new_patient. rewrite Nat.add_0_r. reflexivity.
      + apply imap_ext. intros i x _. simpl. rewrite length_app. simpl.
        f_equal. lia. }
  split; [exact Hrun |]. rewrite Hrun. reflexivity.
Qed.




Section PutAgain.

Implicit Types (id : string) (fields : obj) (patients : list obj).

(** After an update that keeps the identifier, the same id finds the merged
    record at the same position. *)
Lemma find_after_put id fields patients (index : nat) (old : obj) :
  spread old fields !! "id" = old !! "id" ->
  list_find (id_matches (parseInt id)) patients = Some (index, old) ->
  list_find (id_matches (parseInt id)) (<[index := spread old fields]> patients)
    = Some (index, spread old fields).
Proof.
  intros Hid Hf. apply list_find_Some in Hf as (Hl & Hold & Hbefore).
  apply list_find_Some. split; [| split].
  - apply list_lookup_insert_eq. eapply lookup_lt_Some; eassumption.
  - unfold id_matches in *. rewrite Hid. exact Hold.
  - intros j y Hj Hlt. apply (Hbefore j y); [| exact Hlt].
    rewrite list_lookup_insert_ne in Hj by lia. exact Hj.
Qed.

End PutAgain.

(** X5: an update whose body has no ["id"] property is idempotent: sending
    it a second time gives the same response and leaves the same store. *)
Theorem put_patient_idempotent
    (id : string) (fields : obj) (patients : list obj) :
  fields !! "id" = None ->
  put_patient id fields (put_patient id fields patients).2 =
    put_patient id fields patients.
Proof.
  intros Hfree.
  destruct (list_find (id_matches (parseInt id)) patients)
    as [[index old]|] eqn:Hf.
  - rewrite (put_patient_found _ _ _ _ _ Hf). simpl.
    assert (spread old fields !! "id" = old !! "id") as Hid
      by (rewrite lookup_spread, Hfree; reflexivity).
    rewrite (put_patient_found _ _ _ _ _ (find_after_put _ _ _ _ _ Hid Hf)).
    rewrite spread_idemp, list_insert_insert_eq. reflexivity.
  - rewrite (put_patient_absent _ _ _ Hf). simpl.
    apply put_patient_absent, Hf.
Qed.

Lemma put_patient_idempotent_witness :
  put_patient "2" (obj_lit [("age", JNum 29)])
    (put_patient "2" (obj_lit [("age", JNum 29)]) patients0).2 =
  put_patient "2" (obj_lit [("age", JNum 29)]) patients0.
Proof.
  apply (put_patient_idempotent "2" (obj_lit [("age", JNum 29)]) patients0).
  vm_compute. reflexivity.
Defined.

(** X6: through the client, reading a record after updating it gives the
    merged record: when some record carries the safe integer [n] as its
    identifier and the update data has no ["id"] property, [getPatient(n)]
    after [updatePatient(n, data)] is answered 200 with the record the
    update returned. *)
Theorem getPatient_after_updatePatient
    (n : Z) (data : obj) (patients : list obj) :
  safe_integer n ->
  data !! "id" = None ->
  (exists p, p ∈ patients /\ p !! "id" = Some (JNum n)) ->
  exists merged,
    patient_of (handle (updatePatient_request n data) patients).1
      = Some merged /\
    (forall k v, data !! k = Some v -> merged !! k = Some v) /\
    (handle (getPatient_request n)
       (handle (updatePatient_request n data) patients).2).1
      = Response 200 (JObj merged).
Proof.
  intros _ Hfree (p & Hin & Hp).
  unfold updatePatient_request, getPatient_request. simpl.
  destruct (find_present (parseInt (number_to_string n)) patients p Hin)
    as (index & old & Hf & _ & _).
  { unfold id_matches. rewrite Hp, parseInt_number_to_string. simpl.
    apply bool_decide_eq_true. reflexivity. }
  exists (spread old data).
  rewrite (put_patient_found _ _ _ _ _ Hf). simpl.
  split; [reflexivity |]. split.
  - intros k v Hk. rewrite lookup_spread, Hk. reflexivity.
  - assert (spread old data !! "id" = old !! "id") as Hid
      by (rewrite lookup_spread, Hfree; reflexivity).
    unfold get_patient. rewrite (find_after_put _ _ _ _ _ Hid Hf). reflexivity.
Qed.

Lemma getPatient_after_updatePatient_witness :
  exists merged,
    merged !! "age" = Some (JNum 31) /\
    (handle (getPatient_request 1)
       (handle (updatePatient_request 1 (obj_lit [("age", JNum 31)]))
          patients0).2).1 = Response 200 (JObj merged).
Proof.
  destruct (getPatient_after_updatePatient 1 (obj_lit [("age", JNum 31)])
              patients0) as (merged & _ & Hnew & Hget).
  - unfold safe_integer. lia.
  - vm_compute. reflexivity.
  - eexists. split; [apply list_elem_of_here | vm_compute; reflexivity].
  - exists merged. split; [| exact Hget].
    apply Hnew. vm_compute. reflexivity.
Defined.

(** X7: as long as no request body has carried an ["id"] property, the
    identifiers of the store are pairwise distinct, and for a safe integer
    [n], [getPatient(n)] is answered with the record at position [n - 1]
    when [n] is from 1 to the record count, and with 404 otherwise. *)
Theorem getPatient_by_position (patients : list obj) :
  reachable id_free patients ->
  NoDup ((fun p : obj => p !! "id") <$> patients) /\
  (forall (i : nat) (p : obj),
      safe_integer (Z.of_nat i + 1) ->
      patients !! i = Some p ->
      (handle (getPatient_request (Z.of_nat i + 1)) patients).1
        = Response 200 (JObj p)) /\
  (forall n : Z,
      safe_integer n ->
      n < 1 \/ Z.of_nat (length patients) < n ->
      (handle (getPatient_request n) patients).1 = not_found).
Proof.
  intros Hreach. pose proof (reachable_ids_sequential _ Hreach) as Hseq.
  split; [| split].
  - apply NoDup_alt. intros i j v Hi Hj.
    rewrite list_lookup_fmap in Hi, Hj.
    destruct (patients !! i) as [p|] eqn:Hpi; [| discriminate Hi].
    destruct (patients !! j) as [q|] eqn:Hqj; [| discriminate Hj].
    simpl in Hi, Hj. rewrite (Hseq i p Hpi) in Hi. rewrite (Hseq j q Hqj) in Hj.
    assert (Z.of_nat i + 1 = Z.of_nat j + 1) by congruence. lia.
  - intros i p _ Hi. unfold getPatient_request. simpl. unfold get_patient.
    rewrite parseInt_number_to_string.
    assert (list_find (id_matches (Some (Z.of_nat i + 1))) patients
            = Some (i, p)) as ->; [| reflexivity].
    apply list_find_Some. split; [exact Hi |]. split.
    + unfold id_matches. rewrite (Hseq i p Hi). simpl.
      apply bool_decide_eq_true. reflexivity.
    + intros j q Hj Hlt Hm. unfold id_matches in Hm.
      rewrite (Hseq j q Hj) in Hm. simpl in Hm.
      apply bool_decide_eq_true in Hm. lia.
  - intros n _ Hn. unfold getPatient_request. simpl. unfold get_patient.
    rewrite parseInt_number_to_string, find_absent; [reflexivity |].
    apply Forall_lookup. intros j q Hj Hm. unfold id_matches in Hm.
    pose proof (lookup_lt_Some _ _ _ Hj) as Hlt.
    rewrite (Hseq j q Hj) in Hm. simpl in Hm.
    apply bool_decide_eq_true in Hm. lia.
Qed.

Lemma getPatient_by_position_witness :
  (handle (getPatient_request 3)
     (handle (POST_patients (obj_lit [("name", JStr "Jane")])) patients0).2).1
  = Response 200 (JObj (new_patient 2 (obj_lit [("name", JStr "Jane")]))) /\
  (handle (getPatient_request 4)
     (handle (POST_patients (obj_lit [("name", JStr "Jane")])) patients0).2).1
  = not_found.
Proof.
  destruct (getPatient_by_position
    (handle (POST_patients (obj_lit [("name", JStr "Jane")])) patients0).2
    (reachable_step id_free (POST_patients (obj_lit [("name", JStr "Jane")]))
       patients0 (reachable_start id_free) eq_refl)) as (_ & Hat & Hout).
  split.
  - apply (Hat 2%nat); [unfold safe_integer; lia | reflexivity].
  - apply (Hout 4); [unfold safe_integer; lia | right; simpl; lia].
Defined.

(** X8: an update with an empty body never changes the store; it answers
    404 when the read of the same id does, and otherwise 200 with the record
    the read returns. *)
Theorem put_patient_empty_body (id : string) (patients : list obj) :
  (put_patient id ∅ patients).2 = patients /\
  (get_patient id patients = not_found ->
   (put_patient id ∅ patients).1 = not_found) /\
  (forall p : obj,
      get_patient id patients = Response 200 (JObj p) ->
      (put_patient id ∅ patients).1 =
        Response 200 (JObj (obj_lit [("message", JStr "Patient updated");
                                     ("patient", JObj p)]))).
Proof.
  unfold get_patient.
  destruct (list_find (id_matches (parseInt id)) patients)
    as [[index old]|] eqn:Hf.
  - rewrite (put_patient_found _ _ _ _ _ Hf), spread_nothing. simpl.
    split; [| split].
    + apply list_insert_id. apply list_find_Some in Hf as (Hl & _). exact Hl.
    + discriminate.
    + intros p [= <-]. reflexivity.
  - rewrite (put_patient_absent _ _ _ Hf). simpl.
    split; [reflexivity |]. split; [reflexivity | discriminate].
Qed.

Lemma put_patient_empty_body_witness :
  (put_patient "abc" ∅ patients0).1 = not_found.
Proof.
  apply (proj1 (proj2 (put_patient_empty_body "abc" patients0))).
  vm_compute. reflexivity.
Defined.

(** ** What follows the digits of a path segment *)

Section Trailing.

Implicit Types (n d : Z) (t acc : string).

Lemma decimal_digits_app (fuel : nat) n acc t :
  (decimal_digits fuel n acc ++ t)%string = decimal_digits fuel n (acc ++ t).
Proof.
  revert n acc. induction fuel as [| fuel IH]; intros n acc; [reflexivity |].
  simpl. destruct (n <? 10); [reflexivity | apply IH].
Qed.

(** The rendering of a positive number starts with a digit from 1 to 9. *)
Lemma decimal_digits_head (fuel : nat) n acc :
  0 < n -> (Z.to_nat n < S fuel)%nat ->
  exists d rest, 1 <= d <= 9 /\
    decimal_digits (S fuel) n acc = String (digit_char d) rest.
Proof.
  revert n acc. induction fuel as [| fuel IH]; intros n acc Hn Hfuel; [lia |].
  change (decimal_digits (S (S fuel)) n acc) with
    (if n <? 10 then String (digit_char (n mod 10)) acc
     else decimal_digits (S fuel) (n / 10)
            (String (digit_char (n mod 10)) acc)).
  destruct (n <? 10) eqn:Hlt.
  - apply Z.ltb_lt in Hlt. exists (n mod 10), acc.
    rewrite Z.mod_small by lia. split; [lia | reflexivity].
  - apply Z.ltb_ge in Hlt.
    assert (n / 10 < n) by (apply Z.div_lt; lia).
    assert (0 < n / 10) by (apply Z.div_str_pos; lia).
    apply IH; lia.
Qed.

Lemma parseInt_digits_then n t :
  0 < n -> radix_prefix 10 t = [] ->
  parseInt (number_to_string n ++ t) = Some n.
Proof.
  intros Hn Ht. unfold number_to_string.
  replace (n <? 0) with false by (symmetry; apply Z.ltb_ge; lia).
  rewrite decimal_digits_app.
  change (decimal_digits (S (Z.to_nat n)) n ("" ++ t))
    with (decimal_digits (S (Z.to_nat n)) n t).
  pose proof (decimal_digits_value (S (Z.to_nat n)) n t ltac:(lia) ltac:(lia))
    as Hval.
  rewrite Ht in Hval. change (foldl _ n []) with n in Hval.
  destruct (decimal_digits_head (Z.to_nat n) n t Hn ltac:(lia))
    as (d & rest & Hd & Hs).
  rewrite Hs in *.
  destruct (decimal_digit_facts _ (digit_char_decimal d ltac:(lia)))
    as (Hws & Hm & Hp & _ & _ & Hdig).
  assert (Ascii.eqb (digit_char d) "0" = false) as Hz.
  { apply Ascii.eqb_neq. intros Heq.
    pose proof (digit_char_code d ltac:(lia)) as Hc. rewrite Heq in Hc.
    change (code "0") with 48 in Hc. lia. }
  unfold parseInt. simpl trim_start. rewrite Hws.
  simpl strip_sign. rewrite Hm, Hp.
  assert (strip_prefix (String (digit_char d) rest)
          = (10, String (digit_char d) rest)) as ->.
  { destruct rest; simpl; [reflexivity |]. rewrite Hz. reflexivity. }
  simpl radix_prefix in *. rewrite Hdig in *.
  rewrite Hval. f_equal. lia.
Qed.

End Trailing.

(** X9: what follows the digits of the path segment is ignored, and so is
    white space before it: for a positive [n] and any text [t] that does
    not start with a decimal digit, [GET] and [PUT /patients/<n><t>] are
    served exactly as [/patients/<n>]; and a segment with a leading white
    space character is served as the segment without it. *)
Theorem patient_route_ignores_junk
    (n : Z) (t : string) (fields : obj) (patients : list obj) :
  0 < n -> radix_prefix 10 t = [] ->
  get_patient (number_to_string n ++ t) patients =
    get_patient (number_to_string n) patients /\
  put_patient (number_to_string n ++ t) fields patients =
    put_patient (number_to_string n) fields patients /\
  (forall (c : ascii) (s : string),
      is_white_space c = true ->
      get_patient (String c s) patients = get_patient s patients /\
      put_patient (String c s) fields patients = put_patient s fields patients).
Proof.
  intros Hn Ht.
  unfold get_patient, put_patient.
  rewrite (parseInt_digits_then n t Hn Ht), parseInt_number_to_string.
  split; [reflexivity |]. split; [reflexivity |].
  intros c s Hc.
  assert (parseInt (String c s) = parseInt s) as ->.
  { unfold parseInt. simpl trim_start. rewrite Hc. reflexivity. }
  split; reflexivity.
Qed.

Lemma patient_route_ignores_junk_witness :
  get_patient "2nd" patients0 = get_patient "2" patients0 /\
  get_patient " 2" patients0 = get_patient "2" patients0.
Proof.
  destruct (patient_route_ignores_junk 2 "nd" ∅ patients0) as (Hget & _ & Hws).
  - reflexivity.
  - reflexivity.
  - split; [exact Hget |]. apply (Hws " "%char "2"). reflexivity.
Defined.

(** ** The API client *)

(** X10: the bearer token and the 401 reply.  With a non-empty token stored,
    the request interceptor sets [Authorization] to [Bearer <token>] and
    leaves every other header alone; once a reply with status 401 has passed
    the response interceptor, the location is [/login], the token is gone
    while every other stored key is kept, and the request interceptor sends
    the headers as they are. *)
Theorem token_until_401
    (b : browser) (token : string) (headers : gmap string string)
    (reply : response) :
  localStorage b !! "authToken" = Some token -> token <> "" ->
  status reply = 401 ->
  request_interceptor b headers !! "Authorization"
    = Some ("Bearer " ++ token)%string /\
  (forall k : string,
      k <> "Authorization" ->
      request_interceptor b headers !! k = headers !! k) /\
  location_href (response_error_interceptor (Some reply) b) = "/login" /\
  localStorage (response_error_interceptor (Some reply) b) !! "authToken"
    = None /\
  (forall k : string,
      k <> "authToken" ->
      localStorage (response_error_interceptor (Some reply) b) !! k
        = localStorage b !! k) /\
  request_interceptor (response_error_interceptor (Some reply) b) headers
    = headers.
Proof.
  intros Htok Hne H401.
  unfold request_interceptor, response_error_interceptor.
  rewrite Htok, bool_decide_eq_false_2 by exact Hne.
  rewrite bool_decide_eq_true_2 by exact H401. simpl.
  split; [apply lookup_insert_eq |].
  split; [intros k Hk; apply lookup_insert_ne; congruence |].
  split; [reflexivity |].
  split; [apply lookup_delete_eq |].
  split; [intros k Hk; apply lookup_delete_ne; congruence |].
  rewrite lookup_delete_eq. reflexivity.
Qed.

Lemma token_until_401_witness :
  request_interceptor (Browser {[ "authToken" := "abc" ]} "/patients")
    default_headers !! "Authorization" = Some "Bearer abc" /\
  request_interceptor
    (response_error_interceptor (Some (Response 401 JNull))
       (Browser {[ "authToken" := "abc" ]} "/patients"))
    default_headers = default_headers.
Proof.
  destruct (token_until_401 (Browser {[ "authToken" := "abc" ]} "/patients")
              "abc" default_headers (Response 401 JNull))
    as (Hset & _ & _ & _ & _ & Hafter).
  - vm_compute. reflexivity.
  - discriminate.
  - reflexivity.
  - split; [exact Hset | exact Hafter].
Defined.




(** ** The patient page *)

Section Labels.

Import PatientPage.

Implicit Types (n m : Z) (s : string) (ps : list patient) (pg : page).

Lemma parseInt_of_decimal s :
  is_decimal s = true ->
  parseInt s = Some (radix_value 10 (radix_prefix 10 s)).
Proof.
  intros Hs. destruct (parseInt_decimal s Hs) as (Htrim & Hsign & Hpre & Hne).
  unfold parseInt. rewrite Htrim, Hsign, Hpre.
  destruct (radix_prefix 10 s) as [| d ds]; [congruence |].
  f_equal. lia.
Qed.

Lemma zeros_decimal (k : nat) s :
  is_decimal s = true ->
  is_decimal (fold_right String s (replicate k "0"%char)) = true /\
  radix_value 10 (radix_prefix 10 (fold_right String s (replicate k "0"%char)))
    = radix_value 10 (radix_prefix 10 s).
Proof.
  intros Hs. induction k as [| k [IHd IHv]]; [split; [exact Hs | reflexivity] |].
  simpl. split.
  - unfold is_decimal in *. simpl.
    destruct (fold_right String s (replicate k "0"%char)); [discriminate IHd |].
    exact IHd.
  - change (radix_digit 10 "0") with (Some 0). exact IHv.
Qed.

(** A label is read back as the number it was made from. *)
Lemma label_read n :
  0 <= n -> parseInt (padStart 3 "0" (number_to_string n)) = Some n.
Proof.
  intros Hn. unfold padStart.
  assert (is_decimal (number_to_string n) = true) as Hdec.
  { unfold number_to_string.
    replace (n <? 0) with false by (symmetry; apply Z.ltb_ge; lia).
    apply decimal_digits_is_decimal; [exact Hn | reflexivity]. }
  destruct (zeros_decimal (3 - String.length (number_to_string n))
              (number_to_string n) Hdec) as [Hd Hv].
  rewrite (parseInt_of_decimal _ Hd), Hv.
  pose proof (parseInt_number_to_string n) as Hp.
  rewrite (parseInt_of_decimal _ Hdec) in Hp. exact Hp.
Qed.

Lemma patient_label_inj n m :
  0 <= n -> 0 <= m -> patient_label n = patient_label m -> n = m.
Proof.
  intros Hn Hm Heq. unfold patient_label in Heq. injection Heq as Heq.
  pose proof (label_read n Hn) as Hrn. rewrite Heq, (label_read m Hm) in Hrn.
  congruence.
Qed.

Lemma toggle_toggle (p : patient) :
  status p = "Active" \/ status p = "Inactive" -> toggle (toggle p) = p.
Proof. destruct p as [i nm a g lv st ip ng]. simpl. intros [-> | ->]; reflexivity. Qed.

Lemma labelled_sample : labelled samplePatients.
Proof.
  intros [|[|[|[|i]]]] p Hp; simpl in Hp; try discriminate Hp;
    injection Hp as <-; split; try reflexivity; auto.
Qed.

Lemma labelled_act (a : action) pg :
  labelled (patients pg) -> labelled (patients (act a pg)).
Proof.
  intros Hlab. destruct a as [i | today | f | o]; simpl; try exact Hlab.
  - intros j p Hp. rewrite list_lookup_fmap in Hp.
    destruct (patients pg !! j) as [q|] eqn:Hq; [| discriminate Hp].
    simpl in Hp. injection Hp as <-.
    destruct (Hlab j q Hq) as [Hid Hst].
    destruct (bool_decide (id q = i)); [| auto].
    simpl. split; [exact Hid |].
    destruct (bool_decide (status q = "Active")); auto.
  - unfold handleAddPatient.
    destruct (bool_decide (f_name (newPatient pg) = "")
              || bool_decide (f_age (newPatient pg) = "")); [exact Hlab |].
    simpl. intros j p [Hp | [Hj Hp]]%lookup_app_Some; [apply Hlab, Hp |].
    apply list_lookup_singleton_Some in Hp as [Hz <-]. simpl.
    split; [f_equal; lia | auto].
Qed.

Lemma reachable_page_labelled pg :
  reachable_page pg -> labelled (patients pg).
Proof.
  induction 1 as [| a pg _ IH]; [apply labelled_sample | apply labelled_act, IH].
Qed.

End Labels.

(** X13: on the patient page, whatever the user has done, the record at
    position [i] carries the label [P] followed by [i + 1] padded to three
    digits and is active or inactive, and no two records share a label. *)
Theorem page_labels_unique (pg : PatientPage.page) :
  PatientPage.reachable_page pg ->
  PatientPage.labelled (PatientPage.patients pg) /\
  NoDup (PatientPage.id <$> PatientPage.patients pg).
Proof.
  intros Hreach. pose proof (reachable_page_labelled pg Hreach) as Hlab.
  split; [exact Hlab |].
  apply NoDup_alt. intros i j l Hi Hj. rewrite list_lookup_fmap in Hi, Hj.
  destruct (PatientPage.patients pg !! i) as [p|] eqn:Hp; [| discriminate Hi].
  destruct (PatientPage.patients pg !! j) as [q|] eqn:Hq; [| discriminate Hj].
  simpl in Hi, Hj.
  destruct (Hlab i p Hp) as [Hpi _]. destruct (Hlab j q Hq) as [Hqj _].
  assert (Z.of_nat i + 1 = Z.of_nat j + 1); [| lia].
  apply patient_label_inj; [lia | lia | congruence].
Qed.

Lemma page_labels_unique_witness :
  NoDup (PatientPage.id <$> PatientPage.patients
           (PatientPage.act (PatientPage.AddPatient "2025-11-13")
              (PatientPage.act
                 (PatientPage.SetNewPatient (PatientPage.Form "Asha" "41" "Female"))
                 PatientPage.initial_page))).
Proof.
  apply (page_labels_unique
           (PatientPage.act (PatientPage.AddPatient "2025-11-13")
              (PatientPage.act
                 (PatientPage.SetNewPatient (PatientPage.Form "Asha" "41" "Female"))
                 PatientPage.initial_page))).
  repeat apply PatientPage.reachable_act. apply PatientPage.reachable_initial.
Defined.

(** X14: toggling the status of a label twice gives the page back as it
    was, and a toggle changes no record with another label and never the
    number of records. *)
Theorem toggleStatus_twice (i : string) (pg : PatientPage.page) :
  PatientPage.reachable_page pg ->
  (PatientPage.toggleStatus i (PatientPage.toggleStatus i pg).1).1 = pg /\
  length (PatientPage.patients (PatientPage.toggleStatus i pg).1)
    = length (PatientPage.patients pg) /\
  (forall (j : nat) (p : PatientPage.patient),
      PatientPage.patients pg !! j = Some p -> PatientPage.id p <> i ->
      PatientPage.patients (PatientPage.toggleStatus i pg).1 !! j = Some p).
Proof.
  intros Hreach. pose proof (reachable_page_labelled pg Hreach) as Hlab.
  destruct pg as [ps o f]. simpl in *. split; [| split].
  - f_equal. rewrite <- list_fmap_compose.
    rewrite <- (list_fmap_id ps) at 2.
    apply Forall_fmap_ext, Forall_lookup. intros j p Hp. simpl.
    destruct (Hlab j p Hp) as [_ Hst].
    destruct (bool_decide (PatientPage.id p = i)) eqn:Hid.
    + change (PatientPage.id (PatientPage.toggle p)) with (PatientPage.id p).
      rewrite Hid. apply toggle_toggle, Hst.
    + rewrite Hid. reflexivity.
  - apply length_fmap.
  - intros j p Hp Hne. rewrite list_lookup_fmap, Hp. simpl.
    rewrite bool_decide_eq_false_2 by exact Hne. reflexivity.
Qed.

Lemma toggleStatus_twice_witness :
  (PatientPage.toggleStatus "P003"
     (PatientPage.toggleStatus "P003" PatientPage.initial_page).1).1
  = PatientPage.initial_page.
Proof.
  apply (toggleStatus_twice "P003" PatientPage.initial_page).
  apply PatientPage.reachable_initial.
Defined.

(** ** The confidence bands *)

(** X15: the colour and the label of a confidence always name the same
    band, whatever the comparison makes of the value: [success] goes with
    [High], [primary] with [Medium], [warning] with [Low] and [error] with
    [Very Low]. *)
Theorem confidence_color_label_agree
    {num : Type} (ge : num -> num -> bool) (c08 c06 c04 confidence : num) :
  Confidence.label_of_color
    (Confidence.getConfidenceColor ge c08 c06 c04 confidence)
  = Confidence.getConfidenceLabel ge c08 c06 c04 confidence.
Proof.
  unfold Confidence.getConfidenceColor, Confidence.getConfidenceLabel.
  destruct (ge confidence c08); [reflexivity |].
  destruct (ge confidence c06); [reflexivity |].
  destruct (ge confidence c04); reflexivity.
Qed.

(** ** Records behind a duplicate identifier *)


